(** * tmi.misc_utils: validation helpers and their error reports

    A shallow embedding of [src/tmi/misc_utils.py] (save_figure,
    create_invalid_data_str, verify_in_list, verify_same_elements) together
    with the small part of the Python, NumPy, os and matplotlib behaviour
    these four functions rely on, followed by the properties of the
    functions. *)

From Stdlib Require Import ZArith List String Ascii Bool Arith Lia.
From Stdlib Require Import Permutation DecimalString.
Import ListNotations.
Local Open Scope list_scope.
Local Open Scope string_scope.

(** ** Python runtime model *)

Module Py.

(** The elements of the checked collections are limited to integers and
    strings; in particular every element is hashable.  Lists, tuples and
    other elements are outside the model. *)
Inductive atom : Type :=
| AInt (n : Z)
| AStr (s : string).

(** An argument of a checker: a bare scalar or a list of scalars. *)
Inductive pyval : Type :=
| Scalar (a : atom)
| Coll (xs : list atom).

(** A Python float, kept as an exact fraction; the code never inspects it. *)
Record pyfloat : Type := mkFloat { fnum : Z; fden : positive }.

Inductive exn : Type :=
| ValueError (msg : string)
| TypeError (msg : string)
| UnboundLocalError (name : string)
| FileNotFoundError (msg : string).

(** Observable effects: a line written by [print], a call of
    [plt.savefig]. *)
Inductive event : Type :=
| Stdout (line : string)
| SaveFig (fname : string) (dpi : option pyfloat).

(** Result of running a piece of code: a value, or a raised exception with
    its [__cause__] (set by [raise ... from e]). *)
Inductive res (A : Type) : Type :=
| Ok (a : A)
| Err (e : exn) (cause : option exn).
Arguments Ok {A} a.
Arguments Err {A} e cause.

Record run (A : Type) : Type := mkRun { trace : list event; result : res A }.
Arguments mkRun {A} trace result.
Arguments trace {A} r.
Arguments result {A} r.

Definition ret {A} (a : A) : run A := mkRun [] (Ok a).

Definition raise {A} (e : exn) : run A := mkRun [] (Err e None).

Definition raise_from {A} (e cause : exn) : run A := mkRun [] (Err e (Some cause)).

Definition bind {A B} (m : run A) (k : A -> run B) : run B :=
  match result m with
  | Ok a => let r := k a in mkRun (trace m ++ trace r)%list (result r)
  | Err e c => mkRun (trace m) (Err e c)
  end.

(** [try: m  except TypeError as e: h e] *)
Definition except_TypeError {A} (m : run A) (h : exn -> run A) : run A :=
  match result m with
  | Err (TypeError msg) _ =>
      let r := h (TypeError msg) in mkRun (trace m ++ trace r)%list (result r)
  | _ => m
  end.

Definition print (line : string) : run unit := mkRun [Stdout line] (Ok tt).

(** Reading a local variable slot: a local that was never assigned on the
    path taken raises UnboundLocalError. *)
Definition load_fast (name : string) (slot : option string) : run string :=
  match slot with
  | Some v => ret v
  | None => raise (UnboundLocalError name)
  end.

(** [a, b = xs] *)
Definition unpack2 {A} (xs : list A) : run (A * A) :=
  match xs with
  | [a; b] => ret (a, b)
  | [] | [_] => raise (ValueError "not enough values to unpack")
  | _ => raise (ValueError "too many values to unpack")
  end.

Definition atom_eq_dec (a b : atom) : {a = b} + {a <> b}.
Proof.
  decide equality; [apply Z.eq_dec | apply string_dec].
Defined.

(** Python [==] on scalars. *)
Definition atom_eqb (a b : atom) : bool :=
  if atom_eq_dec a b then true else false.

Definition mem (a : atom) (xs : list atom) : bool := existsb (atom_eqb a) xs.

(** *** Strings and formatting *)

Definition str_of_nat (n : nat) : string :=
  NilZero.string_of_uint (Nat.to_uint n).

Definition str_of_Z (z : Z) : string :=
  NilZero.string_of_int (Z.to_int z).

(** [str(x)] and [format(x, "")]. *)
Class Str (A : Type) : Type := str : A -> string.

#[export] Instance Str_string : Str string := fun s => s.
#[export] Instance Str_nat : Str nat := str_of_nat.
#[export] Instance Str_atom : Str atom :=
  fun a => match a with AInt n => str_of_Z n | AStr s => s end.

Fixpoint repeat_char (c : ascii) (n : nat) : string :=
  match n with
  | O => EmptyString
  | S k => String c (repeat_char c k)
  end.

Inductive align : Type := AlignLeft | AlignRight | AlignCenter.

(** The [fill align width] part of the format mini-language, applied to an
    already converted field: "<" pads on the right, ">" on the left and "^"
    on both sides; a field at least [width] long is left unchanged. *)
Definition format_field (fill : ascii) (al : align) (width : nat) (s : string) : string :=
  let pad := width - String.length s in
  match al with
  | AlignLeft => s ++ repeat_char fill pad
  | AlignRight => repeat_char fill pad ++ s
  | AlignCenter => repeat_char fill (pad / 2) ++ s ++ repeat_char fill (pad - pad / 2)
  end.

(** [s.replace(old, new)] for one-character [old] and [new]. *)
Fixpoint replace (old new : ascii) (s : string) : string :=
  match s with
  | EmptyString => EmptyString
  | String c r => String (if Ascii.eqb c old then new else c) (replace old new r)
  end.

(** [sub in s] for two strings. *)
Definition str_contains (sub s : string) : bool :=
  match String.index 0 sub s with
  | Some _ => true
  | None => false
  end.

Definition newline : string := String (ascii_of_nat 10) EmptyString.

(** *** Iteration and membership *)

Definition chars (s : string) : list atom :=
  map (fun c => AStr (String c EmptyString)) (list_ascii_of_string s).

(** [list(v)] and [for x in v]: a list yields its elements, a string its
    characters, an integer is not iterable. *)
Definition iter (v : pyval) : run (list atom) :=
  match v with
  | Coll xs => ret xs
  | Scalar (AStr s) => ret (chars s)
  | Scalar (AInt _) => raise (TypeError "'int' object is not iterable")
  end.

(** [a in v] *)
Definition contains (v : pyval) (a : atom) : run bool :=
  match v with
  | Coll xs => ret (mem a xs)
  | Scalar (AStr s) =>
      match a with
      | AStr sub => ret (str_contains sub s)
      | AInt _ => raise (TypeError "'in <string>' requires string as left operand, not int")
      end
  | Scalar (AInt _) => raise (TypeError "argument of type 'int' is not iterable")
  end.

(** *** Sets *)

(** A set is kept as a duplicate-free list.  The order in which a set is
    iterated depends on hashing and is not fixed by the language, so it is an
    interface: any rearrangement of the elements. *)
Definition pyset : Type := list atom.

Class HashOrder : Type := {
  set_order : list atom -> list atom;
  set_order_perm : forall s, Permutation (set_order s) s
}.

Definition set (xs : list atom) : pyset := nodup atom_eq_dec xs.

(** [s == t]: equal sizes and every element of [s] in [t]. *)
Definition set_eq (s t : pyset) : bool :=
  Nat.eqb (List.length s) (List.length t) && forallb (fun a => mem a t) s.

(** [s - t] *)
Definition set_diff (s t : pyset) : pyset := filter (fun a => negb (mem a t)) s.

(** [s ^ t] *)
Definition set_symdiff (s t : pyset) : pyset := (set_diff s t ++ set_diff t s)%list.

(** [for x in s] *)
Definition set_iter `{HashOrder} (s : pyset) : list atom := set_order s.

End Py.

Import Py.

Declare Scope py_scope.
Notation "x <- m ;; k" := (Py.bind m (fun x => k))
  (at level 61, m at next level, right associativity) : py_scope.
Notation "' p <- m ;; k" := (Py.bind m (fun x => match x with p => k end))
  (at level 61, p pattern, m at next level, right associativity) : py_scope.
Notation "m ;; k" := (Py.bind m (fun _ => k))
  (at level 61, right associativity) : py_scope.
Local Open Scope py_scope.

(** ** NumPy, os.path and matplotlib *)

Module Np.

(** The Python values an array is built from: a scalar (a string
    included) is a single element. *)
Definition elements (v : pyval) : list atom :=
  match v with
  | Scalar a => [a]
  | Coll xs => xs
  end.

(** A string read back from an array of strings: the fixed-width storage
    pads with NUL characters, so trailing NUL characters are not kept. *)
Fixpoint rstrip_nul (s : string) : string :=
  match s with
  | EmptyString => EmptyString
  | String c r =>
      match rstrip_nul r with
      | EmptyString => if Ascii.eqb c Ascii.zero then EmptyString else String c EmptyString
      | r' => String c r'
      end
  end.

Definition is_str (a : atom) : bool :=
  match a with
  | AStr _ => true
  | AInt _ => false
  end.

(** The common element type of an array: with a string among the values
    the array is an array of strings, and integers are stored by their
    decimal writing; otherwise it is an array of integers. *)
Definition coerce (xs : list atom) : list atom :=
  if existsb is_str xs then map (fun a => AStr (rstrip_nul (str a))) xs else xs.

(** [np.asarray(v).ravel()] *)
Definition asarray (v : pyval) : list atom := coerce (elements v).

(** [np.isin(element, test_elements)]: for each element of the array of
    [element], whether it equals some element of the array of
    [test_elements].  Two things NumPy does are left out: integers outside
    the 64-bit range, which it compares as floating-point numbers, and the
    comparison of an array of integers with an array of strings, whose
    result depends on the sizes of the arrays and on the version; here such
    elements compare by value, and an integer never equals a string. *)
Definition isin (element test_elements : pyval) : list bool :=
  map (fun a => mem a (asarray test_elements)) (asarray element).

(** Inputs on which the comparison of [isin] is the one of NumPy and also
    the one of Python's [==]: integers of the 64-bit range on both sides, or
    strings without trailing NUL character on both sides. *)
Definition int64 (a : atom) : bool :=
  match a with
  | AInt n => (-9223372036854775808 <=? n)%Z && (n <=? 9223372036854775807)%Z
  | AStr _ => false
  end.

Definition plain_str (a : atom) : bool :=
  match a with
  | AStr s => String.eqb (rstrip_nul s) s
  | AInt _ => false
  end.

Definition exact (xs ys : list atom) : bool :=
  (forallb int64 xs && forallb int64 ys) || (forallb plain_str xs && forallb plain_str ys).

(** [arr.all()] *)
Definition all (bs : list bool) : bool := forallb (fun b => b) bs.

(** [np.all(b)] on a Python bool. *)
Definition all_bool (b : bool) : bool := b.

End Np.

Module Os.

(** The file system as seen by [os.path.exists]. *)
Definition fs : Type := string -> bool.

Definition path_exists (w : fs) (p : string) : bool := w p.

Fixpoint ends_with_slash (s : string) : bool :=
  match s with
  | EmptyString => false
  | String c EmptyString => Ascii.eqb c "/"
  | String _ r => ends_with_slash r
  end.

(** [os.path.join(a, b)] (posixpath). *)
Definition path_join (a b : string) : string :=
  if String.prefix "/" b then b
  else if Nat.eqb (String.length a) 0 || ends_with_slash a then a ++ b
  else a ++ "/" ++ b.

End Os.

Module Plt.

(** What the plotting library does with a target it is asked to write:
    [None] when the file is written, the exception it raises otherwise (a
    missing sub-directory, an unknown extension, ...). *)
Definition backend : Type := string -> option exn.

(** [plt.savefig(fname, dpi=dpi)]: the call is recorded, and it returns or
    raises as the library decides. *)
Definition savefig (lib : backend) (fname : string) (dpi : option pyfloat) : run unit :=
  mkRun [SaveFig fname dpi]
    (match lib fname with
     | None => Ok tt
     | Some e => Err e None
     end).

End Plt.

(** ** misc_utils *)

(** [save_file] is [None] when Python's None is passed. *)
Definition save_figure (lib : Plt.backend) (w : Os.fs) (save_dir : string)
    (save_file : option string) (dpi : option pyfloat) : run unit :=
  if negb (Os.path_exists w save_dir) then
    raise (FileNotFoundError ("save_dir " ++ save_dir ++ " does not exist"))
  else
    match save_file with
    | None => raise (FileNotFoundError "save_dir specified but no save_file specified")
    | Some f => Plt.savefig lib (Os.path_join save_dir f) dpi
    end.

(** [start=] version of [enumerate]. *)
Fixpoint enumerate {A} (start : nat) (xs : list A) : list (nat * A) :=
  match xs with
  | [] => []
  | x :: r => (start, x) :: enumerate (S start) r
  end.

Definition create_invalid_data_str {A} `{Str A} (invalid_data : list A) : string :=
  fold_left
    (fun err_str_data '(idx, data) =>
       let err_msg :=
         format_field " " AlignLeft 12 (str idx) ++ " " ++ str data ++ newline in
       err_str_data ++ err_msg)
    (enumerate 1 (firstn 10 invalid_data))
    "".

(** [[str(val) for val in vals if val not in good_values]] *)
Fixpoint difference_comp (vals : list atom) (good_values : pyval) : run (list string) :=
  match vals with
  | [] => ret []
  | val :: rest =>
      found <- contains good_values val ;;
      tl <- difference_comp rest good_values ;;
      ret (if found then tl else str val :: tl)
  end.

Definition verify_in_list (kwargs : list (string * pyval)) : run unit :=
  if negb (Nat.eqb (List.length kwargs) 2) then
    raise (ValueError "You must provide 2 arguments to verify_in_list")
  else
    ' (test_list, good_values) <- unpack2 (map snd kwargs) ;;
    ' (test_list_name, good_values_name) <-
      (if negb (Np.all (Np.isin test_list good_values)) then
         ' (test_list_name, good_values_name) <- unpack2 (map fst kwargs) ;;
         let test_list_name := replace "_" " " test_list_name in
         let good_values_name := replace "_" " " good_values_name in
         vals <- iter test_list ;;
         difference <- difference_comp vals good_values ;;
         let err_str :=
           "Displaying " ++ str (Nat.min (List.length difference) 10)
           ++ " of " ++ str (List.length difference)
           ++ " invalid value(s) provided for list "
           ++ format_field " " AlignCenter 0 test_list_name ++ "." ++ newline in
         let err_str := err_str ++ create_invalid_data_str difference in
         raise (ValueError err_str)
       else ret (None, None)) ;;
    a <- load_fast "test_list_name" test_list_name ;;
    b <- load_fast "good_values_name" good_values_name ;;
    print ("All values in list " ++ a ++ " exist in list " ++ b) ;;
    ret tt.

(** The two "Displaying ..." paragraphs of verify_same_elements share this
    shape: the count line, formatted with ["{:>13} \n"]. *)
Definition missing_header (shown total : nat) (list_name : string) : string :=
  format_field " " AlignRight 13
    ("Displaying " ++ str shown ++ " of " ++ str total
     ++ " missing value(s) for list " ++ list_name ++ newline)
  ++ " " ++ newline.

Definition verify_same_elements `{HashOrder} (kwargs : list (string * pyval)) : run unit :=
  if negb (Nat.eqb (List.length kwargs) 2) then
    raise (ValueError "You must provide 2 arguments to verify_same_elements")
  else
    ' (list_one, list_two) <- unpack2 (map snd kwargs) ;;
    ' (list_one_cast, list_two_cast) <-
      except_TypeError
        (list_one_cast <- iter list_one ;;
         list_two_cast <- iter list_two ;;
         ret (list_one_cast, list_two_cast))
        (fun e =>
           raise_from (ValueError "Both arguments provided must be lists or list types") e) ;;
    ' (list_one_name, list_two_name) <-
      (if negb (Np.all_bool (set_eq (set list_one_cast) (set list_two_cast))) then
         ' (list_one_name, list_two_name) <- unpack2 (map fst kwargs) ;;
         let list_one_name := replace "_" " " list_one_name in
         let list_two_name := replace "_" " " list_two_name in
         let missing_vals_1 :=
           map str (set_iter (set_diff (set list_one_cast) (set list_two_cast))) in
         let missing_vals_2 :=
           map str (set_iter (set_diff (set list_two_cast) (set list_one_cast))) in
         let missing_vals_total :=
           map str (set_iter (set_symdiff (set list_one_cast) (set list_two_cast))) in
         let err_str :=
           str (List.length missing_vals_total) ++ " value(s) provided for list "
           ++ format_field " " AlignCenter 0 list_one_name ++ " and list "
           ++ format_field " " AlignCenter 0 list_two_name
           ++ " are not found in both lists." ++ newline in
         let err_str := err_str
           ++ missing_header (Nat.min (List.length missing_vals_1) 10)
                (List.length missing_vals_2) list_one_name in
         let err_str := err_str ++ (create_invalid_data_str missing_vals_1 ++ newline) in
         let err_str := err_str
           ++ missing_header (Nat.min (List.length missing_vals_2) 10)
                (List.length missing_vals_2) list_two_name in
         let err_str := err_str ++ (create_invalid_data_str missing_vals_2 ++ newline) in
         raise (ValueError err_str)
       else ret (None, None)) ;;
    a <- load_fast "list_one_name" list_one_name ;;
    b <- load_fast "list_two_name" list_two_name ;;
    print ("List " ++ a ++ " and list " ++ b ++ " contain the same elements") ;;
    ret tt.

(** One concrete iteration order: the order of first insertion. *)
#[export] Instance insertion_order : HashOrder :=
  {| set_order := fun s => s; set_order_perm := fun s => Permutation_refl s |}.


(** ** The report format, as documented *)

(** One line of the report of [create_invalid_data_str]: the decimal index
    at the left of a 12 character field, a space, the value, a newline. *)
Definition report_line (i : nat) (v : string) : string :=
  str_of_nat i ++ repeat_char " " (12 - String.length (str_of_nat i))
  ++ " " ++ v ++ newline.

(** The same line with the padding put to the left of the index. *)
Definition report_line_left_padded (i : nat) (v : string) : string :=
  repeat_char " " (12 - String.length (str_of_nat i)) ++ str_of_nat i
  ++ " " ++ v ++ newline.

Definition join_lines (ls : list string) : string := fold_right String.append "" ls.

(** The report for a whole list: a line for each of the first
    [min (length l) 10] entries, numbered from 1. *)
Definition report {A} `{Str A} (line : nat -> string -> string) (l : list A) : string :=
  join_lines
    (map (fun '(i, v) => line i (str v))
         (combine (seq 1 (Nat.min (List.length l) 10)) l)).

(** Values of the candidate that are not among the accepted ones, in the
    order of the candidate, repetitions kept. *)
Definition offending (A B : list atom) : list atom :=
  filter (fun a => if in_dec atom_eq_dec a B then false else true) A.

(** The message of the membership failure. *)
Definition in_list_message (name : string) (bad : list string) : string :=
  "Displaying " ++ str_of_nat (Nat.min (List.length bad) 10) ++ " of "
  ++ str_of_nat (List.length bad) ++ " invalid value(s) provided for list "
  ++ name ++ "." ++ newline ++ create_invalid_data_str (firstn 10 bad).

(** The count line of one direction of the set comparison. *)
Definition count_line (shown total : nat) (name : string) : string :=
  "Displaying " ++ str_of_nat shown ++ " of " ++ str_of_nat total
  ++ " missing value(s) for list " ++ name ++ newline.

(** The paragraph of one direction: count line, a line holding one space,
    the formatted block, an empty line. *)
Definition direction_section (shown total : nat) (name : string) (vals : list string) : string :=
  count_line shown total name ++ " " ++ newline
  ++ create_invalid_data_str vals ++ newline.

Definition same_elements_summary (total : nat) (name1 name2 : string) : string :=
  str_of_nat total ++ " value(s) provided for list " ++ name1 ++ " and list "
  ++ name2 ++ " are not found in both lists." ++ newline.

Definition display_name (k : string) : string := replace "_" " " k.

Definition raised {A} (r : run A) : Prop := exists e c, result r = Err e c.

(** The plotting library was asked to write [fname]. *)
Definition savefig_called {A} (r : run A) (fname : string) (dpi : option pyfloat) : Prop :=
  In (SaveFig fname dpi) (trace r).

(** A string of one character followed by a NUL character. *)
Definition with_nul (c : ascii) : string := String c (String Ascii.zero EmptyString).

(** The last character of a string. *)
Fixpoint last_char (s : string) : option ascii :=
  match s with
  | EmptyString => None
  | String c EmptyString => Some c
  | String _ r => last_char r
  end.

(** The body of the loop of create_invalid_data_str. *)
Definition add_line {A} `{Str A} (acc : string) (p : nat * A) : string :=
  let '(idx, data) := p in
  acc ++ (format_field " " AlignLeft 12 (str idx) ++ " " ++ str data ++ newline).

(** The values of [A] that are missing from [B], as verify_same_elements
    lists them. *)
Definition missing `{HashOrder} (A B : list atom) : list string :=
  map str (set_iter (set_diff (set A) (set B))).

Definition missing_total `{HashOrder} (A B : list atom) : list string :=
  map str (set_iter (set_symdiff (set A) (set B))).

(** The message built on the failure branch of verify_same_elements.  The
    first count line takes its total from the second direction, as the
    source does. *)
Definition same_elements_message `{HashOrder} (k1 k2 : string) (A B : list atom) : string :=
  same_elements_summary (List.length (missing_total A B)) (display_name k1) (display_name k2)
  ++ direction_section (Nat.min (List.length (missing A B)) 10) (List.length (missing B A))
       (display_name k1) (missing A B)
  ++ direction_section (Nat.min (List.length (missing B A)) 10) (List.length (missing B A))
       (display_name k2) (missing B A).

(** ** The calls of tests/misc_utils_test.py *)

(** [with pytest.raises(ValueError): call] as a check on the outcome of the
    call. *)
Definition pytest_raises_ValueError {A} (r : run A) : bool :=
  match result r with
  | Err (ValueError _) _ => true
  | _ => false
  end.

Definition test_verify_in_list : bool :=
  pytest_raises_ValueError (verify_in_list [("one", Coll [AStr "not_enough"])])
  && pytest_raises_ValueError
       (verify_in_list [("one", Scalar (AStr "hello"));
                        ("two", Coll [AStr "goodbye"; AStr "hello world"])])
  && pytest_raises_ValueError
       (verify_in_list [("one", Coll [AStr "goodbye"; AStr "goodbye"; AStr "hello"]);
                        ("two", Scalar (AStr "goodbye"))])
  && pytest_raises_ValueError
       (verify_in_list [("one", Coll [AStr "hello"; AStr "world"]);
                        ("two", Coll [AStr "hello"; AStr "goodbye"])]).

Definition test_verify_same_elements `{HashOrder} : bool :=
  pytest_raises_ValueError (verify_same_elements [("one", Coll [AStr "not_enough"])])
  && pytest_raises_ValueError
       (verify_same_elements [("one", Scalar (AInt 1)); ("two", Scalar (AInt 2))])
  && pytest_raises_ValueError
       (verify_same_elements
          [("one", Coll [AStr "elem1"; AStr "elem2"; AStr "elem2"]);
           ("two", Coll [AStr "elem2"; AStr "elem2"; AStr "elem4"])]).

Definition test_create_invalid_data_str : bool :=
  let invalid_data := map (fun i => "data_" ++ str i) (seq 0 20) in
  let invalid_data_str1 := create_invalid_data_str (firstn 10 invalid_data) in
  let invalid_data_str2 := create_invalid_data_str (firstn 3 invalid_data) in
  let invalid_data_str3 := create_invalid_data_str invalid_data in
  forallb (fun data => str_contains data invalid_data_str1) (firstn 10 invalid_data)
  && forallb (fun data => str_contains data invalid_data_str2) (firstn 3 invalid_data)
  && forallb (fun data => str_contains data invalid_data_str3) (firstn 10 invalid_data).

(** ** Strings *)

Section StringFacts.

Lemma append_nil_r (s : string) : s ++ "" = s.
Proof. induction s as [|c s IH]; simpl; [reflexivity | now rewrite IH]. Qed.

Lemma append_assoc (s t u : string) : (s ++ t) ++ u = s ++ (t ++ u).
Proof. induction s as [|c s IH]; simpl; [reflexivity | now rewrite IH]. Qed.

Lemma length_append (s t : string) :
  String.length (s ++ t) = String.length s + String.length t.
Proof. induction s as [|c s IH]; simpl; [reflexivity | now rewrite IH]. Qed.

Lemma format_field_center_0 (fill : ascii) (s : string) :
  format_field fill AlignCenter 0 s = s.
Proof. unfold format_field; simpl. apply append_nil_r. Qed.

Lemma format_field_right_long (fill : ascii) (w : nat) (s : string) :
  w <= String.length s -> format_field fill AlignRight w s = s.
Proof.
  intros Hw. unfold format_field.
  replace (w - String.length s) with 0 by lia. reflexivity.
Qed.

Lemma format_field_left (fill : ascii) (w : nat) (s : string) :
  format_field fill AlignLeft w s = s ++ repeat_char fill (w - String.length s).
Proof. reflexivity. Qed.

Lemma last_char_append (s : string) (c : ascii) :
  last_char (s ++ String c "") = Some c.
Proof.
  induction s as [|d s IH]; simpl; [reflexivity|].
  destruct (s ++ String c "") eqn:E; [|exact IH].
  destruct s; discriminate.
Qed.

End StringFacts.

(** ** create_invalid_data_str *)

Section Formatter.

Context {A : Type} `{Str A}.

Lemma format_line_report_line (i : nat) (v : string) :
  format_field " " AlignLeft 12 (str i) ++ " " ++ v ++ newline = report_line i v.
Proof.
  unfold report_line. rewrite format_field_left, append_assoc. reflexivity.
Qed.

Lemma fold_add_line (ps : list (nat * A)) (acc : string) :
  fold_left add_line ps acc
  = acc ++ join_lines (map (fun '(i, v) => report_line i (str v)) ps).
Proof.
  revert acc; induction ps as [|[i v] ps IH]; intros acc.
  - cbn [fold_left map join_lines fold_right]. now rewrite append_nil_r.
  - cbn [fold_left map join_lines fold_right]. rewrite IH.
    unfold add_line. rewrite format_line_report_line, append_assoc. reflexivity.
Qed.

Lemma enumerate_firstn (n start : nat) (l : list A) :
  enumerate start (firstn n l)
  = combine (seq start (Nat.min (List.length l) n)) l.
Proof.
  revert start l; induction n as [|n IH]; intros start [|x l]; simpl; try reflexivity.
  now rewrite IH.
Qed.

Lemma create_invalid_data_str_report (l : list A) :
  create_invalid_data_str l = report report_line l.
Proof.
  unfold create_invalid_data_str, report.
  change (fold_left _ ?ps "") with (fold_left add_line ps "").
  rewrite fold_add_line, enumerate_firstn. reflexivity.
Qed.

Lemma create_invalid_data_str_firstn (l : list A) :
  create_invalid_data_str (firstn 10 l) = create_invalid_data_str l.
Proof.
  unfold create_invalid_data_str. now rewrite firstn_firstn.
Qed.

End Formatter.

(** ** Running code *)

Section RunFacts.

Context {A B : Type}.

Lemma bind_ret (a : A) (k : A -> run B) : Py.bind (ret a) k = k a.
Proof. unfold Py.bind, ret; simpl. now destruct (k a). Qed.

Lemma bind_raise (e : exn) (k : A -> run B) : Py.bind (raise e) k = raise e.
Proof. reflexivity. Qed.

End RunFacts.

(** ** Membership *)

Lemma atom_eqb_eq (a b : atom) : atom_eqb a b = true <-> a = b.
Proof.
  unfold atom_eqb. destruct (atom_eq_dec a b); split; congruence.
Qed.

Lemma mem_In (a : atom) (xs : list atom) : mem a xs = true <-> In a xs.
Proof.
  unfold mem. rewrite existsb_exists. split.
  - intros [x [Hx Hax]]. apply atom_eqb_eq in Hax. now subst.
  - intros Hin. exists a. split; [assumption | now apply atom_eqb_eq].
Qed.

Lemma mem_in_dec (a : atom) (xs : list atom) :
  mem a xs = if in_dec atom_eq_dec a xs then true else false.
Proof.
  destruct (in_dec atom_eq_dec a xs) as [Hin | Hnin].
  - now apply mem_In.
  - destruct (mem a xs) eqn:E; [|reflexivity].
    apply mem_In in E. contradiction.
Qed.

Lemma difference_comp_coll (vals B : list atom) :
  difference_comp vals (Coll B) = ret (map str (offending vals B)).
Proof.
  induction vals as [|val rest IH]; [reflexivity|].
  cbn [difference_comp contains]. rewrite bind_ret, IH, bind_ret.
  unfold offending; cbn [filter]. rewrite mem_in_dec.
  now destruct (in_dec atom_eq_dec val B).
Qed.

Lemma isin_all_asarray (v g : pyval) :
  Np.all (Np.isin v g) = forallb (fun a => mem a (Np.asarray g)) (Np.asarray v).
Proof.
  unfold Np.all, Np.isin.
  induction (Np.asarray v) as [|a l IH]; [reflexivity|].
  cbn [map forallb]. now rewrite IH.
Qed.

(** Arrays of one kind hold the values they were built from. *)
Lemma coerce_int64 (xs : list atom) : forallb Np.int64 xs = true -> Np.coerce xs = xs.
Proof.
  intros Hint. unfold Np.coerce.
  replace (existsb Np.is_str xs) with false; [reflexivity|].
  symmetry. induction xs as [|a xs IH]; [reflexivity|].
  cbn [forallb existsb] in *. apply andb_true_iff in Hint. destruct Hint as [Ha Hxs].
  rewrite (IH Hxs). now destruct a.
Qed.

Lemma coerce_plain_str (xs : list atom) :
  forallb Np.plain_str xs = true -> Np.coerce xs = xs.
Proof.
  intros Hstr. unfold Np.coerce. destruct (existsb Np.is_str xs); [|reflexivity].
  induction xs as [|a xs IH]; [reflexivity|].
  cbn [forallb map] in *. apply andb_true_iff in Hstr. destruct Hstr as [Ha Hxs].
  rewrite (IH Hxs). destruct a as [n | t]; [discriminate Ha|].
  cbn [Np.plain_str] in Ha. apply String.eqb_eq in Ha.
  change (str (AStr t)) with t. now rewrite Ha.
Qed.

Lemma exact_coerce (xs ys : list atom) :
  Np.exact xs ys = true -> Np.coerce xs = xs /\ Np.coerce ys = ys.
Proof.
  unfold Np.exact. intros Hex. apply orb_true_iff in Hex.
  destruct Hex as [Hex | Hex]; apply andb_true_iff in Hex; destruct Hex as [Hx Hy].
  - split; now apply coerce_int64.
  - split; now apply coerce_plain_str.
Qed.

Lemma exact_sym (xs ys : list atom) : Np.exact xs ys = Np.exact ys xs.
Proof.
  unfold Np.exact.
  now rewrite (andb_comm (forallb Np.int64 xs)), (andb_comm (forallb Np.plain_str xs)).
Qed.

(** The check of line 76 for a bare string against a list of strings:
    the strings are compared without their trailing NUL characters. *)
Lemma isin_string_scalar (s : string) (ts : list string) :
  Np.all (Np.isin (Scalar (AStr s)) (Coll (map AStr ts))) = true
  <-> In (Np.rstrip_nul s) (map Np.rstrip_nul ts).
Proof.
  rewrite isin_all_asarray.
  change (Np.asarray (Scalar (AStr s))) with [AStr (Np.rstrip_nul s)].
  cbn [forallb]. rewrite andb_true_r, mem_In.
  unfold Np.asarray, Np.coerce. cbn [Np.elements].
  destruct ts as [|t ts]; [reflexivity|].
  cbn [map existsb Np.is_str orb]. rewrite !map_map.
  change (fun x => AStr (Np.rstrip_nul (str (AStr x))))
    with (fun x => AStr (Np.rstrip_nul x)).
  change (AStr (Np.rstrip_nul (str (AStr t)))) with (AStr (Np.rstrip_nul t)).
  split.
  - intros [E | Hin]; [left; now injection E|].
    right. apply in_map_iff in Hin. destruct Hin as [x [E Hx]].
    injection E as E. rewrite <- E. now apply in_map.
  - intros [E | Hin]; [left; now rewrite E|].
    right. apply in_map_iff in Hin. destruct Hin as [x [E Hx]].
    apply in_map_iff. exists x. split; [now rewrite E | exact Hx].
Qed.

(** On such inputs the check of line 76 is Python membership. *)
Lemma isin_all_exact (v g : pyval) :
  Np.exact (Np.elements v) (Np.elements g) = true ->
  Np.all (Np.isin v g)
  = forallb (fun a => mem a (Np.elements g)) (Np.elements v).
Proof.
  intros Hex. rewrite isin_all_asarray. unfold Np.asarray.
  destruct (exact_coerce _ _ Hex) as [-> ->]. reflexivity.
Qed.

Lemma forallb_mem_false (A B : list atom) :
  (exists a, In a A /\ ~ In a B) -> forallb (fun a => mem a B) A = false.
Proof.
  intros [a [HA HB]].
  destruct (forallb (fun a => mem a B) A) eqn:E; [|reflexivity].
  rewrite forallb_forall in E. specialize (E a HA).
  apply mem_In in E. contradiction.
Qed.

Lemma forallb_mem_true (A B : list atom) :
  incl A B -> forallb (fun a => mem a B) A = true.
Proof.
  intros Hincl. apply forallb_forall. intros a Ha. apply mem_In. now apply Hincl.
Qed.

(** ** verify_in_list *)

(** The failure branch, for any candidate that can be iterated. *)
Lemma verify_in_list_failure (k1 k2 : string) (v : pyval) (vals B : list atom) :
  Np.all (Np.isin v (Coll B)) = false ->
  iter v = ret vals ->
  verify_in_list [(k1, v); (k2, Coll B)]
  = raise (ValueError (in_list_message (display_name k1) (map str (offending vals B)))).
Proof.
  intros Hall Hiter. unfold verify_in_list.
  cbn [List.length Nat.eqb negb map snd fst unpack2].
  rewrite bind_ret, Hall. cbn [negb].
  rewrite bind_ret, Hiter, bind_ret, difference_comp_coll, bind_ret.
  rewrite bind_raise.
  unfold in_list_message, display_name.
  rewrite format_field_center_0, create_invalid_data_str_firstn.
  rewrite !append_assoc. reflexivity.
Qed.

(** The other branch: the names are read without having been assigned. *)
Lemma verify_in_list_pass (k1 k2 : string) (v g : pyval) :
  Np.all (Np.isin v g) = true ->
  verify_in_list [(k1, v); (k2, g)] = raise (UnboundLocalError "test_list_name").
Proof.
  intros Hall. unfold verify_in_list.
  cbn [List.length Nat.eqb negb map snd fst unpack2].
  rewrite bind_ret, Hall. cbn [negb].
  rewrite bind_ret. reflexivity.
Qed.

(** On two lists the outcome is decided by the membership test alone. *)
Lemma verify_in_list_outcome (k1 k2 : string) (A B : list atom) :
  Np.exact A B = true ->
  verify_in_list [(k1, Coll A); (k2, Coll B)]
  = if forallb (fun a => mem a B) A
    then raise (UnboundLocalError "test_list_name")
    else raise (ValueError (in_list_message (display_name k1) (map str (offending A B)))).
Proof.
  intros Hex. destruct (forallb (fun a => mem a B) A) eqn:E.
  - apply verify_in_list_pass. now rewrite isin_all_exact.
  - apply verify_in_list_failure; [now rewrite isin_all_exact | reflexivity].
Qed.

(** ** Sets *)

Lemma set_In (a : atom) (xs : list atom) : In a (set xs) <-> In a xs.
Proof. unfold set. apply nodup_In. Qed.

Lemma set_NoDup (xs : list atom) : NoDup (set xs).
Proof. unfold set. apply NoDup_nodup. Qed.

(** Python's set equality decides equality of the sets of elements. *)
Lemma set_eq_same_elements (A B : list atom) :
  set_eq (set A) (set B) = true <-> (forall x, In x A <-> In x B).
Proof.
  unfold set_eq. rewrite andb_true_iff, Nat.eqb_eq, forallb_forall. split.
  - intros [Hlen Hsub] x.
    assert (Hincl : incl (set A) (set B)).
    { intros y Hy. apply mem_In. now apply Hsub. }
    assert (Hback : incl (set B) (set A)).
    { apply NoDup_length_incl; [apply set_NoDup | lia | exact Hincl]. }
    rewrite <- (set_In x A), <- (set_In x B). split; [apply Hincl | apply Hback].
  - intros Hsame.
    assert (Hincl : incl (set A) (set B)).
    { intros y Hy. apply set_In, (proj1 (Hsame y)), set_In, Hy. }
    assert (Hback : incl (set B) (set A)).
    { intros y Hy. apply set_In, (proj2 (Hsame y)), set_In, Hy. }
    split.
    + apply Nat.le_antisymm; apply NoDup_incl_length; auto using set_NoDup.
    + intros x Hx. apply mem_In. now apply Hincl.
Qed.

Lemma set_diff_In (a : atom) (s t : pyset) :
  In a (set_diff s t) <-> In a s /\ ~ In a t.
Proof.
  unfold set_diff. rewrite filter_In, negb_true_iff. split.
  - intros [Hs Hm]. split; [assumption|]. intros Ht.
    apply mem_In in Ht. congruence.
  - intros [Hs Ht]. split; [assumption|].
    destruct (mem a t) eqn:E; [|reflexivity]. apply mem_In in E. contradiction.
Qed.

Lemma set_diff_nil (s t : pyset) : incl s t -> set_diff s t = [].
Proof.
  intros Hincl. destruct (set_diff s t) as [|a l] eqn:E; [reflexivity|].
  assert (Ha : In a (set_diff s t)) by (rewrite E; now left).
  apply set_diff_In in Ha. destruct Ha as [Hs Ht]. elim Ht. now apply Hincl.
Qed.

Section SetIteration.

Context `{HashOrder}.

Lemma set_iter_perm (s : pyset) : Permutation (set_iter s) s.
Proof. unfold set_iter. apply set_order_perm. Qed.

Lemma set_iter_nil : set_iter [] = [].
Proof. apply Permutation_nil. apply Permutation_sym, set_iter_perm. Qed.

Lemma set_iter_singleton (a : atom) : set_iter [a] = [a].
Proof. apply Permutation_length_1_inv. apply Permutation_sym, set_iter_perm. Qed.

Lemma set_iter_length (s : pyset) : List.length (set_iter s) = List.length s.
Proof. apply Permutation_length, set_iter_perm. Qed.

Lemma set_iter_In (a : atom) (s : pyset) : In a (set_iter s) <-> In a s.
Proof.
  split; apply Permutation_in; [|apply Permutation_sym]; apply set_iter_perm.
Qed.

Lemma missing_nil (A B : list atom) : incl A B -> missing A B = [].
Proof.
  intros Hincl. unfold missing. rewrite set_diff_nil; [now rewrite set_iter_nil|].
  intros x Hx. apply set_In, Hincl, set_In, Hx.
Qed.

(** ** verify_same_elements *)

Lemma count_line_long (shown total : nat) (name : string) :
  13 <= String.length (count_line shown total name).
Proof.
  unfold count_line. rewrite !length_append. simpl String.length. lia.
Qed.

Lemma missing_header_count_line (shown total : nat) (name : string) :
  missing_header shown total name = count_line shown total name ++ " " ++ newline.
Proof.
  unfold missing_header.
  change ("Displaying " ++ str shown ++ " of " ++ str total
          ++ " missing value(s) for list " ++ name ++ newline)
    with (count_line shown total name).
  now rewrite format_field_right_long by apply count_line_long.
Qed.

Lemma except_TypeError_ret {A} (a : A) (h : exn -> run A) :
  except_TypeError (ret a) h = ret a.
Proof. reflexivity. Qed.

Lemma verify_same_elements_failure (k1 k2 : string) (v1 v2 : pyval) (A B : list atom) :
  iter v1 = ret A -> iter v2 = ret B ->
  set_eq (set A) (set B) = false ->
  verify_same_elements [(k1, v1); (k2, v2)]
  = raise (ValueError (same_elements_message k1 k2 A B)).
Proof.
  intros H1 H2 Hne. unfold verify_same_elements.
  cbn [List.length Nat.eqb negb map snd fst unpack2].
  rewrite bind_ret, H1, H2, !bind_ret, except_TypeError_ret, bind_ret.
  unfold Np.all_bool. rewrite Hne. cbn [negb].
  rewrite bind_ret, bind_raise.
  rewrite !missing_header_count_line, !format_field_center_0.
  unfold same_elements_message, same_elements_summary, direction_section,
    missing, missing_total, display_name.
  rewrite !append_assoc. reflexivity.
Qed.

Lemma verify_same_elements_pass (k1 k2 : string) (v1 v2 : pyval) (A B : list atom) :
  iter v1 = ret A -> iter v2 = ret B ->
  set_eq (set A) (set B) = true ->
  verify_same_elements [(k1, v1); (k2, v2)] = raise (UnboundLocalError "list_one_name").
Proof.
  intros H1 H2 Heq. unfold verify_same_elements.
  cbn [List.length Nat.eqb negb map snd fst unpack2].
  rewrite bind_ret, H1, H2, !bind_ret, except_TypeError_ret, bind_ret.
  unfold Np.all_bool. rewrite Heq. cbn [negb].
  rewrite bind_ret. reflexivity.
Qed.

Lemma verify_same_elements_not_iterable (k1 k2 : string) (v1 v2 : pyval) :
  (exists n, v1 = Scalar (AInt n)) \/ (exists n, v2 = Scalar (AInt n)) ->
  verify_same_elements [(k1, v1); (k2, v2)]
  = raise_from (ValueError "Both arguments provided must be lists or list types")
               (TypeError "'int' object is not iterable").
Proof.
  intros Hbad. unfold verify_same_elements.
  cbn [List.length Nat.eqb negb map snd fst unpack2].
  rewrite bind_ret.
  destruct Hbad as [[n ->] | [n ->]].
  - reflexivity.
  - destruct v1 as [[m | s] | xs]; reflexivity.
Qed.

(** On two lists the outcome is decided by the set comparison alone. *)
Lemma verify_same_elements_outcome (k1 k2 : string) (A B : list atom) :
  verify_same_elements [(k1, Coll A); (k2, Coll B)]
  = if set_eq (set A) (set B)
    then raise (UnboundLocalError "list_one_name")
    else raise (ValueError (same_elements_message k1 k2 A B)).
Proof.
  destruct (set_eq (set A) (set B)) eqn:E.
  - now apply verify_same_elements_pass with (A := A) (B := B).
  - now apply verify_same_elements_failure.
Qed.

(** What a direction lists: the values of one list that the other lacks. *)
Lemma missing_In (A B : list atom) (s : string) :
  In s (missing A B) <-> exists a, In a A /\ ~ In a B /\ s = str a.
Proof.
  unfold missing. rewrite in_map_iff. split.
  - intros [a [<- Ha]]. apply set_iter_In, set_diff_In in Ha.
    destruct Ha as [HA HB]. exists a. rewrite !set_In in *. auto.
  - intros [a [HA [HB ->]]]. exists a. split; [reflexivity|].
    apply set_iter_In, set_diff_In. rewrite !set_In. auto.
Qed.

End SetIteration.

(** ** Properties of the four functions *)

(** C5 (as amended).  The formatter returns, for the first
    [min (length l) 10] entries and in their order, one line per entry made
    of the 1-based index written at the left of a field of width 12 (the
    padding spaces follow the index), a space, the value and a newline;
    entries after the tenth do not change the result, and the empty list
    gives the empty string.  Being a function to [string], it has no effect. *)
Theorem create_invalid_data_str_left_aligned {A : Type} `{Str A} (l : list A) :
  create_invalid_data_str l = report report_line l
  /\ create_invalid_data_str (firstn 10 l) = create_invalid_data_str l
  /\ create_invalid_data_str (@nil A) = "".
Proof.
  split; [apply create_invalid_data_str_report|].
  split; [apply create_invalid_data_str_firstn | reflexivity].
Qed.

(** C5 as stated fails: with the padding to the left of the index the line
    for a single value would start with eleven spaces, while the function
    starts it with the index. *)
Lemma create_invalid_data_str_not_left_padded :
  create_invalid_data_str ["data_0"] = "1            data_0" ++ newline
  /\ report report_line_left_padded ["data_0"] = "           1 data_0" ++ newline
  /\ create_invalid_data_str ["data_0"] <> report report_line_left_padded ["data_0"].
Proof.
  split; [reflexivity|]. split; [reflexivity|].
  vm_compute. discriminate.
Qed.

(** C2 (the code departs from it).  With every candidate value among the
    accepted ones, verify_in_list prints nothing and raises
    UnboundLocalError: the names it wants to print were only assigned on the
    failure branch. *)
Theorem verify_in_list_subset_raises_unbound :
  verify_in_list [("one", Coll [AStr "hello"]);
                  ("two", Coll [AStr "goodbye"; AStr "hello"])]
  = raise (UnboundLocalError "test_list_name").
Proof. apply verify_in_list_pass. reflexivity. Qed.

(** C3 (the code departs from it).  The value made of "a" and a NUL
    character is not in the reference list ["a"], and the comprehension of
    line 82 would list it; yet the check of line 76 passes, because an
    array of strings does not keep trailing NUL characters, and the call
    raises UnboundLocalError instead of the ValueError that names the
    value. *)
Theorem verify_in_list_trailing_nul_not_reported :
  ~ In (AStr (with_nul "a")) [AStr "a"]
  /\ difference_comp [AStr (with_nul "a")] (Coll [AStr "a"]) = ret [with_nul "a"]
  /\ verify_in_list [("one", Coll [AStr (with_nul "a")]); ("two", Coll [AStr "a"])]
     = raise (UnboundLocalError "test_list_name").
Proof.
  split; [|split].
  - intros [E | []]. discriminate E.
  - reflexivity.
  - apply verify_in_list_pass. reflexivity.
Qed.



(** C6.  With a number of named arguments other than two, both checkers
    raise the usage error, whatever the arguments are; nothing is printed
    and nothing is compared. *)
Theorem wrong_argument_count_is_usage_error `{HashOrder}
    (kwargs : list (string * pyval)) :
  List.length kwargs <> 2 ->
  verify_in_list kwargs
  = raise (ValueError "You must provide 2 arguments to verify_in_list")
  /\ verify_same_elements kwargs
     = raise (ValueError "You must provide 2 arguments to verify_same_elements").
Proof.
  intros Hlen. unfold verify_in_list, verify_same_elements.
  destruct (Nat.eqb_spec (List.length kwargs) 2) as [E | _]; [contradiction|].
  split; reflexivity.
Qed.

Lemma wrong_argument_count_is_usage_error_witness :
  List.length [("one", Coll [AStr "not_enough"])] <> 2
  /\ verify_in_list [("one", Coll [AStr "not_enough"])]
     = raise (ValueError "You must provide 2 arguments to verify_in_list")
  /\ @verify_same_elements insertion_order [("one", Coll [AStr "not_enough"])]
     = raise (ValueError "You must provide 2 arguments to verify_same_elements").
Proof.
  assert (Hlen : List.length [("one", Coll [AStr "not_enough"])] <> 2)
    by (simpl; lia).
  split; [exact Hlen|].
  exact (@wrong_argument_count_is_usage_error insertion_order
           [("one", Coll [AStr "not_enough"])] Hlen).
Defined.

(** C1 (the code departs from it).  On two lists with the same distinct
    elements verify_same_elements prints nothing and raises
    UnboundLocalError: the names it wants to print were only assigned on the
    failure branch. *)
Theorem verify_same_elements_equal_sets_raises_unbound `{HashOrder} :
  verify_same_elements [("list_one", Coll [AStr "a"; AStr "b"; AStr "b"]);
                        ("list_two", Coll [AStr "b"; AStr "a"])]
  = raise (UnboundLocalError "list_one_name").
Proof.
  apply verify_same_elements_pass
    with (A := [AStr "a"; AStr "b"; AStr "b"]) (B := [AStr "b"; AStr "a"]);
    reflexivity.
Qed.

(** C4 (the code departs from it).  For list_one = ["x", "y"] and
    list_two = ["x"] one value is missing in the first direction and none in
    the second, and the count line of the first direction reads
    "Displaying 1 of 0": its total is the count of the second direction. *)
Theorem verify_same_elements_first_total_from_second `{HashOrder} :
  verify_same_elements [("list_one", Coll [AStr "x"; AStr "y"]);
                        ("list_two", Coll [AStr "x"])]
  = raise (ValueError
      ("1 value(s) provided for list list one and list list two are not found in both lists."
       ++ newline
       ++ "Displaying 1 of 0 missing value(s) for list list one" ++ newline
       ++ " " ++ newline
       ++ "1            y" ++ newline
       ++ newline
       ++ "Displaying 0 of 0 missing value(s) for list list two" ++ newline
       ++ " " ++ newline
       ++ newline)).
Proof.
  rewrite (verify_same_elements_failure "list_one" "list_two" _ _
             [AStr "x"; AStr "y"] [AStr "x"]) by reflexivity.
  unfold same_elements_message, missing, missing_total.
  change (set_symdiff (set [AStr "x"; AStr "y"]) (set [AStr "x"])) with [AStr "y"].
  change (set_diff (set [AStr "x"; AStr "y"]) (set [AStr "x"])) with [AStr "y"].
  change (set_diff (set [AStr "x"]) (set [AStr "x"; AStr "y"])) with (@nil atom).
  rewrite set_iter_singleton, set_iter_nil. reflexivity.
Qed.

(** C8.  When the two inputs differ as sets, the message of the raised
    ValueError is the summary line followed by the paragraph of the first
    direction and then the paragraph of the second, each made of its count
    line and the formatter's block; a direction without missing values keeps
    its count line and has the empty string as block. *)
Theorem verify_same_elements_both_directions `{HashOrder}
    (k1 k2 : string) (v1 v2 : pyval) (A B : list atom) :
  iter v1 = ret A -> iter v2 = ret B ->
  ~ (forall x, In x A <-> In x B) ->
  verify_same_elements [(k1, v1); (k2, v2)]
  = raise (ValueError
      (same_elements_summary (List.length (missing_total A B))
         (display_name k1) (display_name k2)
       ++ direction_section (Nat.min (List.length (missing A B)) 10)
            (List.length (missing B A)) (display_name k1) (missing A B)
       ++ direction_section (Nat.min (List.length (missing B A)) 10)
            (List.length (missing B A)) (display_name k2) (missing B A)))
  /\ (incl A B -> create_invalid_data_str (missing A B) = "")
  /\ (incl B A -> create_invalid_data_str (missing B A) = "").
Proof.
  intros H1 H2 Hdiff.
  assert (Hne : set_eq (set A) (set B) = false).
  { destruct (set_eq (set A) (set B)) eqn:E; [|reflexivity].
    elim Hdiff. now apply set_eq_same_elements. }
  split; [|split].
  - now apply verify_same_elements_failure.
  - intros Hincl. now rewrite missing_nil.
  - intros Hincl. now rewrite missing_nil.
Qed.

Lemma verify_same_elements_both_directions_witness :
  iter (Coll [AStr "x"]) = ret [AStr "x"]
  /\ iter (Coll [AStr "x"; AStr "y"]) = ret [AStr "x"; AStr "y"]
  /\ ~ (forall a, In a [AStr "x"] <-> In a [AStr "x"; AStr "y"])
  /\ @verify_same_elements insertion_order
       [("list_one", Coll [AStr "x"]); ("list_two", Coll [AStr "x"; AStr "y"])]
     = raise (ValueError
         ("1 value(s) provided for list list one and list list two are not found in both lists."
          ++ newline
          ++ "Displaying 0 of 1 missing value(s) for list list one" ++ newline
          ++ " " ++ newline
          ++ newline
          ++ "Displaying 1 of 1 missing value(s) for list list two" ++ newline
          ++ " " ++ newline
          ++ "1            y" ++ newline
          ++ newline)).
Proof.
  assert (Hdiff : ~ (forall a, In a [AStr "x"] <-> In a [AStr "x"; AStr "y"])).
  { intros Hall. destruct (proj2 (Hall (AStr "y"))) as [E | []].
    - simpl; auto.
    - discriminate E. }
  split; [reflexivity|]. split; [reflexivity|]. split; [exact Hdiff|].
  exact (proj1 (@verify_same_elements_both_directions insertion_order
                  "list_one" "list_two" (Coll [AStr "x"]) (Coll [AStr "x"; AStr "y"])
                  [AStr "x"] [AStr "x"; AStr "y"] eq_refl eq_refl Hdiff)).
Defined.

(** The message of the set comparison ends with a newline. *)
Lemma same_elements_message_last `{HashOrder} (k1 k2 : string) (A B : list atom) :
  last_char (same_elements_message k1 k2 A B) = Some (ascii_of_nat 10).
Proof.
  unfold same_elements_message.
  unfold direction_section at 2.
  rewrite <- !append_assoc. apply last_char_append.
Qed.

(** C7.  When one of the two inputs cannot be turned into a list (it is a
    bare integer), verify_same_elements raises ValueError with the message
    "Both arguments provided must be lists or list types" and the TypeError
    of the conversion as its cause, whatever the other input is; on inputs
    that can be turned into lists this error is never raised, so it differs
    from the error of the comparison. *)
Theorem verify_same_elements_conversion_error `{HashOrder}
    (k1 k2 : string) (v1 v2 : pyval) :
  (forall xs, iter v1 <> ret xs) \/ (forall xs, iter v2 <> ret xs) ->
  verify_same_elements [(k1, v1); (k2, v2)]
  = raise_from (ValueError "Both arguments provided must be lists or list types")
               (TypeError "'int' object is not iterable")
  /\ (forall (k1' k2' : string) (v1' v2' : pyval) (A B : list atom) (c : option exn),
        iter v1' = ret A -> iter v2' = ret B ->
        result (verify_same_elements [(k1', v1'); (k2', v2')])
        <> Err (ValueError "Both arguments provided must be lists or list types") c).
Proof.
  intros Hbad. split.
  - apply verify_same_elements_not_iterable.
    destruct Hbad as [Hbad | Hbad]; [left | right].
    + destruct v1 as [[n | s] | xs]; [now exists n | |]; elim (Hbad _ eq_refl).
    + destruct v2 as [[n | s] | xs]; [now exists n | |]; elim (Hbad _ eq_refl).
  - intros k1' k2' v1' v2' A B c H1 H2.
    destruct (set_eq (set A) (set B)) eqn:E.
    + rewrite (verify_same_elements_pass k1' k2' v1' v2' A B H1 H2 E). discriminate.
    + rewrite (verify_same_elements_failure k1' k2' v1' v2' A B H1 H2 E).
      cbn [raise result]. intros Heq. injection Heq as Hmsg _.
      apply (f_equal last_char) in Hmsg.
      rewrite same_elements_message_last in Hmsg. discriminate Hmsg.
Qed.

Lemma verify_same_elements_conversion_error_witness :
  ((forall xs, iter (Scalar (AInt 1)) <> ret xs)
   \/ (forall xs, iter (Scalar (AInt 2)) <> ret xs))
  /\ @verify_same_elements insertion_order
       [("one", Scalar (AInt 1)); ("two", Scalar (AInt 2))]
     = raise_from (ValueError "Both arguments provided must be lists or list types")
                  (TypeError "'int' object is not iterable").
Proof.
  assert (Hbad : (forall xs, iter (Scalar (AInt 1)) <> ret xs)
                 \/ (forall xs, iter (Scalar (AInt 2)) <> ret xs)).
  { left. intros xs E. discriminate E. }
  split; [exact Hbad|].
  exact (proj1 (@verify_same_elements_conversion_error insertion_order
                  "one" "two" (Scalar (AInt 1)) (Scalar (AInt 2)) Hbad)).
Defined.

(** C9 (as amended).  save_figure raises without having called the
    plotting library exactly when the directory does not exist or the file
    name is None; it calls the plotting library exactly when the directory
    exists and a file name is given, be the name empty or not, and then the
    target is the directory joined with that name and the call ends as the
    library's call ends. *)
Theorem save_figure_guards (lib : Plt.backend) (w : Os.fs) (save_dir : string)
    (save_file : option string) (dpi : option pyfloat) :
  (raised (save_figure lib w save_dir save_file dpi)
   /\ trace (save_figure lib w save_dir save_file dpi) = []
   <-> Os.path_exists w save_dir = false \/ save_file = None)
  /\ ((exists fname, savefig_called (save_figure lib w save_dir save_file dpi) fname dpi)
      <-> Os.path_exists w save_dir = true /\ save_file <> None)
  /\ (forall name,
        save_figure lib w save_dir (Some name) dpi
        = if Os.path_exists w save_dir
          then Plt.savefig lib (Os.path_join save_dir name) dpi
          else raise (FileNotFoundError ("save_dir " ++ save_dir ++ " does not exist"))).
Proof.
  unfold save_figure, raised, savefig_called.
  destruct (Os.path_exists w save_dir) eqn:Hdir; cbn [negb].
  - destruct save_file as [name|]; cbn.
    + split; [|split].
      * split; [intros [_ E]; discriminate E | intros [E | E]; discriminate E].
      * split; [intros _; split; [reflexivity | discriminate]|].
        intros _. exists (Os.path_join save_dir name). now left.
      * reflexivity.
    + split; [|split].
      * split; [now right | intros _; split; eauto].
      * split; [intros (f & []) | intros [_ E]; now elim E].
      * reflexivity.
  - cbn. split; [|split].
    + split; [now left | intros _; split; eauto].
    + split; [intros (f & []) | intros [E _]; discriminate E].
    + reflexivity.
Qed.

(** C9 as stated fails: with an existing directory and the empty string as
    file name save_figure raises nothing of its own; it calls the plotting
    library with the directory followed by a slash as target, and returns
    when the library writes the figure. *)
Lemma save_figure_accepts_empty_name :
  save_figure (fun _ => None) (fun p => String.eqb p "plots") "plots" (Some "")
    (Some (mkFloat 300 1))
  = mkRun [SaveFig "plots/" (Some (mkFloat 300 1))] (Ok tt)
  /\ ~ raised (save_figure (fun _ => None) (fun p => String.eqb p "plots") "plots"
                 (Some "") (Some (mkFloat 300 1))).
Proof.
  split; [reflexivity|].
  intros (e & c & E). discriminate E.
Qed.

(** ** Further properties of create_invalid_data_str *)

Lemma prefix_append (s r : string) : String.prefix s (s ++ r) = true.
Proof.
  induction s as [|c s IH]; [now destruct r|].
  simpl. destruct (ascii_dec c c) as [_ | Hc]; [exact IH | now elim Hc].
Qed.

Lemma str_contains_middle (pre sub post : string) :
  str_contains sub (pre ++ sub ++ post) = true.
Proof.
  unfold str_contains. induction pre as [|c pre IH].
  - cbn [String.append]. destruct (sub ++ post) as [|b r] eqn:E.
    + destruct sub; [reflexivity | discriminate E].
    + cbn [String.index]. rewrite <- E, prefix_append. reflexivity.
  - change (String c pre ++ sub ++ post) with (String c (pre ++ sub ++ post)).
    cbn [String.index]. destruct (String.prefix sub (String c (pre ++ sub ++ post)));
      [reflexivity|].
    destruct (String.index 0 sub (pre ++ sub ++ post)); [reflexivity | discriminate IH].
Qed.

Lemma join_lines_app (xs ys : list string) :
  join_lines (xs ++ ys) = join_lines xs ++ join_lines ys.
Proof.
  induction xs as [|x xs IH]; [reflexivity|].
  cbn [List.app join_lines fold_right]. fold (join_lines (xs ++ ys)).
  fold (join_lines xs). now rewrite IH, append_assoc.
Qed.

Lemma str_of_nat_short (i : nat) : i <= 10 -> String.length (str_of_nat i) <= 2.
Proof.
  intros Hi.
  do 11 (destruct i as [|i]; [vm_compute; lia|]). lia.
Qed.

Section FormatterMore.

Context {A : Type} `{Str A}.

Lemma create_invalid_data_str_lines (l : list A) :
  create_invalid_data_str l
  = join_lines (map (fun '(i, v) => report_line i (str v)) (enumerate 1 (firstn 10 l))).
Proof.
  unfold create_invalid_data_str.
  change (fold_left _ ?ps "") with (fold_left add_line ps "").
  now rewrite fold_add_line.
Qed.

Lemma enumerate_app (start : nat) (xs ys : list A) :
  enumerate start (xs ++ ys)
  = (enumerate start xs ++ enumerate (start + List.length xs) ys)%list.
Proof.
  revert start; induction xs as [|x xs IH]; intros start.
  - cbn. now rewrite Nat.add_0_r.
  - cbn [List.app enumerate List.length]. rewrite IH.
    now rewrite Nat.add_succ_r.
Qed.

Lemma In_enumerate (start : nat) (xs : list A) (v : A) :
  In v xs -> exists i, In (i, v) (enumerate start xs).
Proof.
  revert start; induction xs as [|x xs IH]; intros start Hin; [destruct Hin|].
  destruct Hin as [-> | Hin].
  - exists start. now left.
  - destruct (IH (S start) Hin) as [i Hi]. exists i. now right.
Qed.

Lemma report_lines_length (xs : list A) (start : nat) :
  start + List.length xs <= 11 ->
  String.length (join_lines (map (fun '(i, v) => report_line i (str v)) (enumerate start xs)))
  = list_sum (map (fun v => 14 + String.length (str v)) xs).
Proof.
  revert start; induction xs as [|x xs IH]; intros start Hb; [reflexivity|].
  cbn [enumerate map join_lines fold_right list_sum List.length] in *.
  fold (join_lines (map (fun '(i, v) => report_line i (str v)) (enumerate (S start) xs))).
  rewrite length_append, IH by lia.
  f_equal. unfold report_line. rewrite !length_append.
  assert (Hs : String.length (str_of_nat start) <= 2) by (apply str_of_nat_short; lia).
  assert (Hr : forall n, String.length (repeat_char " " n) = n).
  { induction n as [|n IHn]; [reflexivity | simpl; now rewrite IHn]. }
  rewrite Hr. cbn [String.length newline]. lia.
Qed.

End FormatterMore.

(** X1.  Every one of the first ten values occurs, in its string form, in
    the text returned by the formatter. *)
Theorem create_invalid_data_str_mentions_first_ten {A : Type} `{Str A}
    (l : list A) (v : A) :
  In v (firstn 10 l) ->
  str_contains (str v) (create_invalid_data_str l) = true.
Proof.
  intros Hin. rewrite create_invalid_data_str_lines.
  destruct (In_enumerate 1 _ _ Hin) as [i Hi].
  apply in_split in Hi. destruct Hi as (ps & qs & ->).
  rewrite map_app, join_lines_app. cbn [map join_lines fold_right].
  unfold report_line.
  set (before := join_lines (map (fun '(i, v) => report_line i (str v)) ps)).
  set (after := fold_right String.append "" _).
  set (idx := str_of_nat i).
  set (pad := repeat_char " " (12 - String.length idx)).
  replace (before ++ (idx ++ pad ++ " " ++ str v ++ newline) ++ after)
    with ((before ++ idx ++ pad ++ " ") ++ str v ++ (newline ++ after))
    by (now rewrite !append_assoc).
  apply str_contains_middle.
Qed.

Lemma create_invalid_data_str_mentions_first_ten_witness :
  In "data_2" (firstn 10 ["data_0"; "data_1"; "data_2"])
  /\ str_contains "data_2" (create_invalid_data_str ["data_0"; "data_1"; "data_2"]) = true.
Proof.
  assert (Hin : In "data_2" (firstn 10 ["data_0"; "data_1"; "data_2"]))
    by (simpl; auto).
  split; [exact Hin|].
  exact (create_invalid_data_str_mentions_first_ten
           ["data_0"; "data_1"; "data_2"] "data_2" Hin).
Defined.

(** X2.  Each rendered entry takes its value's length plus 14 characters
    (the index field of 12, the separating space and the newline), so the
    returned text is as long as the sum of these over the first ten
    entries. *)
Theorem create_invalid_data_str_length {A : Type} `{Str A} (l : list A) :
  String.length (create_invalid_data_str l)
  = list_sum (map (fun v => 14 + String.length (str v)) (firstn 10 l)).
Proof.
  rewrite create_invalid_data_str_lines. apply report_lines_length.
  rewrite length_firstn. lia.
Qed.

(** X3.  Appending further values to the input only extends the returned
    text: the text for [l] is a prefix of the text for [l ++ more]. *)
Theorem create_invalid_data_str_prefix_of_extension {A : Type} `{Str A}
    (l more : list A) :
  String.prefix (create_invalid_data_str l) (create_invalid_data_str (l ++ more)) = true.
Proof.
  rewrite !create_invalid_data_str_lines, firstn_app, enumerate_app, map_app,
    join_lines_app.
  apply prefix_append.
Qed.

(** ** Further properties of verify_in_list *)

Lemma forallb_false_exists {A : Type} (f : A -> bool) (l : list A) :
  forallb f l = false -> exists x, In x l /\ f x = false.
Proof.
  induction l as [|x l IH]; [discriminate|].
  cbn [forallb]. destruct (f x) eqn:E.
  - intros Hl. destruct (IH Hl) as [y [Hy Hfy]]. exists y. split; [now right | exact Hfy].
  - intros _. exists x. split; [now left | exact E].
Qed.

Lemma contains_cases (g : pyval) (a : atom) :
  (exists b, contains g a = ret b) \/ (exists m, contains g a = raise (TypeError m)).
Proof.
  destruct g as [[n | t] | B]; cbn [contains]; eauto.
  destruct a; eauto.
Qed.

Lemma difference_comp_cases (vals : list atom) (g : pyval) :
  (exists d, difference_comp vals g = ret d)
  \/ (exists m, difference_comp vals g = raise (TypeError m)).
Proof.
  induction vals as [|val rest IH]; [left; now exists []|].
  cbn [difference_comp].
  destruct (contains_cases g val) as [[b ->] | [m ->]]; [|right; now exists m].
  rewrite bind_ret.
  destruct IH as [[d ->] | [m ->]]; [|right; now exists m].
  rewrite bind_ret. left. eauto.
Qed.

(** The failure branch for any candidate and reference on which the
    iteration and the membership tests go through. *)
Lemma verify_in_list_failure_with (k1 k2 : string) (v g : pyval)
    (vals : list atom) (d : list string) :
  Np.all (Np.isin v g) = false ->
  iter v = ret vals ->
  difference_comp vals g = ret d ->
  verify_in_list [(k1, v); (k2, g)]
  = raise (ValueError (in_list_message (display_name k1) d)).
Proof.
  intros Hall Hiter Hdiff. unfold verify_in_list.
  cbn [List.length Nat.eqb negb map snd fst unpack2].
  rewrite bind_ret, Hall. cbn [negb].
  rewrite bind_ret, Hiter, bind_ret, Hdiff, bind_ret, bind_raise.
  unfold in_list_message, display_name.
  rewrite format_field_center_0, create_invalid_data_str_firstn.
  rewrite !append_assoc. reflexivity.
Qed.

Lemma verify_in_list_iter_error (k1 k2 : string) (v g : pyval) (m : string) :
  Np.all (Np.isin v g) = false ->
  iter v = raise (TypeError m) ->
  verify_in_list [(k1, v); (k2, g)] = raise (TypeError m).
Proof.
  intros Hall Hiter. unfold verify_in_list.
  cbn [List.length Nat.eqb negb map snd fst unpack2].
  rewrite bind_ret, Hall. cbn [negb].
  rewrite bind_ret, Hiter. reflexivity.
Qed.

Lemma verify_in_list_membership_error (k1 k2 : string) (v g : pyval)
    (vals : list atom) (m : string) :
  Np.all (Np.isin v g) = false ->
  iter v = ret vals ->
  difference_comp vals g = raise (TypeError m) ->
  verify_in_list [(k1, v); (k2, g)] = raise (TypeError m).
Proof.
  intros Hall Hiter Hdiff. unfold verify_in_list.
  cbn [List.length Nat.eqb negb map snd fst unpack2].
  rewrite bind_ret, Hall. cbn [negb].
  rewrite bind_ret, Hiter, bind_ret, Hdiff. reflexivity.
Qed.

Lemma difference_comp_str_ref (ss : list string) (t : string) :
  difference_comp (map AStr ss) (Scalar (AStr t))
  = ret (filter (fun s => negb (str_contains s t)) ss).
Proof.
  induction ss as [|s ss IH]; [reflexivity|].
  cbn [map difference_comp contains filter]. rewrite bind_ret, IH, bind_ret.
  now destruct (str_contains s t).
Qed.

(** X4.  verify_in_list never returns normally and never prints: whatever
    the named arguments are, it ends by raising ValueError, TypeError or the
    UnboundLocalError of its last statement. *)
Theorem verify_in_list_always_raises (kwargs : list (string * pyval)) :
  trace (verify_in_list kwargs) = []
  /\ ((exists msg, result (verify_in_list kwargs) = Err (ValueError msg) None)
      \/ (exists msg, result (verify_in_list kwargs) = Err (TypeError msg) None)
      \/ result (verify_in_list kwargs) = Err (UnboundLocalError "test_list_name") None).
Proof.
  destruct kwargs as [|[k1 v] [|[k2 g] [|p rest]]];
    try (split; [reflexivity | left; eexists; reflexivity]).
  destruct (Np.all (Np.isin v g)) eqn:Hall.
  - rewrite (verify_in_list_pass k1 k2 v g Hall). split; [reflexivity | now right; right].
  - assert (Hiter : (exists vals, iter v = ret vals)
                    \/ (exists m, iter v = raise (TypeError m))).
    { destruct v as [[n | s] | xs]; cbn [iter]; eauto. }
    destruct Hiter as [[vals Hiter] | [m Hiter]].
    + destruct (difference_comp_cases vals g) as [[d Hd] | [m Hd]].
      * rewrite (verify_in_list_failure_with k1 k2 v g vals d Hall Hiter Hd).
        split; [reflexivity | left; eexists; reflexivity].
      * rewrite (verify_in_list_membership_error k1 k2 v g vals m Hall Hiter Hd).
        split; [reflexivity | right; left; eexists; reflexivity].
    + rewrite (verify_in_list_iter_error k1 k2 v g m Hall Hiter).
      split; [reflexivity | right; left; eexists; reflexivity].
Qed.

(** X5.  On two lists of 64-bit integers, or of strings without trailing
    NUL character, verify_in_list raises ValueError exactly when some value
    of the candidate is not in the reference. *)
Theorem verify_in_list_fails_iff (k1 k2 : string) (A B : list atom) :
  Np.exact A B = true ->
  ((exists msg, verify_in_list [(k1, Coll A); (k2, Coll B)] = raise (ValueError msg))
   <-> (exists a, In a A /\ ~ In a B)).
Proof.
  intros Hex. rewrite (verify_in_list_outcome k1 k2 A B Hex). split.
  - intros [msg Hmsg]. destruct (forallb (fun a => mem a B) A) eqn:E; [discriminate Hmsg|].
    apply forallb_false_exists in E. destruct E as [a [Ha Hm]].
    exists a. split; [exact Ha|]. intros Hin. apply mem_In in Hin. congruence.
  - intros Hbad. rewrite (forallb_mem_false A B Hbad). eexists; reflexivity.
Qed.

Lemma verify_in_list_fails_iff_witness :
  Np.exact [AInt 1; AInt 7] [AInt 1; AInt 2] = true
  /\ ((exists msg,
         verify_in_list [("one", Coll [AInt 1; AInt 7]); ("two", Coll [AInt 1; AInt 2])]
         = raise (ValueError msg))
      <-> (exists a, In a [AInt 1; AInt 7] /\ ~ In a [AInt 1; AInt 2])).
Proof.
  split; [reflexivity|].
  exact (verify_in_list_fails_iff "one" "two" [AInt 1; AInt 7] [AInt 1; AInt 2] eq_refl).
Defined.

(** X16.  On two lists of 64-bit integers, or of strings without trailing
    NUL character, when some value of the candidate is not in the
    reference, verify_in_list raises ValueError; the message gives
    [min total 10] and [total], the number of offending values, then the
    candidate's name with underscores turned into spaces, then the
    formatter's block for the first ten offending values, which are taken in
    the candidate's order with repetitions kept. *)
Theorem verify_in_list_reports_offending (k1 k2 : string) (A B : list atom) :
  Np.exact A B = true ->
  (exists a, In a A /\ ~ In a B) ->
  verify_in_list [(k1, Coll A); (k2, Coll B)]
  = raise (ValueError (in_list_message (display_name k1) (map str (offending A B)))).
Proof.
  intros Hex Hbad. apply verify_in_list_failure; [|reflexivity].
  rewrite isin_all_exact by exact Hex. cbn [Np.elements]. now apply forallb_mem_false.
Qed.

Lemma verify_in_list_reports_offending_witness :
  Np.exact [AStr "hello"; AStr "world"; AStr "world"] [AStr "hello"; AStr "goodbye"] = true
  /\ (exists a, In a [AStr "hello"; AStr "world"; AStr "world"]
                /\ ~ In a [AStr "hello"; AStr "goodbye"])
  /\ verify_in_list [("one_list", Coll [AStr "hello"; AStr "world"; AStr "world"]);
                     ("two", Coll [AStr "hello"; AStr "goodbye"])]
     = raise (ValueError
         ("Displaying 2 of 2 invalid value(s) provided for list one list." ++ newline
          ++ "1            world" ++ newline ++ "2            world" ++ newline)).
Proof.
  assert (Hbad : exists a, In a [AStr "hello"; AStr "world"; AStr "world"]
                           /\ ~ In a [AStr "hello"; AStr "goodbye"]).
  { exists (AStr "world"). split; [simpl; auto|].
    simpl. intros [E | [E | []]]; discriminate E. }
  split; [reflexivity|]. split; [exact Hbad|].
  exact (verify_in_list_reports_offending "one_list" "two"
           [AStr "hello"; AStr "world"; AStr "world"]
           [AStr "hello"; AStr "goodbye"] eq_refl Hbad).
Defined.

(** X6.  With a bare string as reference and a list of strings as
    candidate, none with a trailing NUL character, the check fails as soon
    as one value differs from the reference, but the values reported are
    the ones that are not substrings of the reference: a value that is a
    proper substring of the reference makes the call fail without being
    listed. *)
Theorem verify_in_list_string_reference (k1 k2 : string) (ss : list string) (t : string) :
  Np.exact (map AStr ss) [AStr t] = true ->
  (exists s, In s ss /\ s <> t) ->
  verify_in_list [(k1, Coll (map AStr ss)); (k2, Scalar (AStr t))]
  = raise (ValueError
      (in_list_message (display_name k1)
         (filter (fun s => negb (str_contains s t)) ss))).
Proof.
  intros Hex [s [Hs Hne]].
  apply verify_in_list_failure_with with (vals := map AStr ss);
    [|reflexivity | apply difference_comp_str_ref].
  rewrite isin_all_exact by exact Hex. cbn [Np.elements]. apply forallb_mem_false.
  exists (AStr s). split; [now apply in_map|].
  intros [E | []]. injection E as E. now elim Hne.
Qed.

Lemma verify_in_list_string_reference_witness :
  Np.exact (map AStr ["good"; "bye"]) [AStr "goodbye"] = true
  /\ (exists s, In s ["good"; "bye"] /\ s <> "goodbye")
  /\ verify_in_list [("one", Coll (map AStr ["good"; "bye"]));
                     ("two", Scalar (AStr "goodbye"))]
     = raise (ValueError
         ("Displaying 0 of 0 invalid value(s) provided for list one." ++ newline)).
Proof.
  assert (Hbad : exists s, In s ["good"; "bye"] /\ s <> "goodbye").
  { exists "good". split; [simpl; auto | discriminate]. }
  split; [reflexivity|]. split; [exact Hbad|].
  exact (verify_in_list_string_reference "one" "two" ["good"; "bye"] "goodbye"
           eq_refl Hbad).
Defined.

(** X7.  A bare 64-bit integer as candidate that is not among the 64-bit
    integers of the reference makes verify_in_list raise TypeError, not
    ValueError: the failure branch tries to iterate over the integer. *)
Theorem verify_in_list_int_candidate (k1 k2 : string) (n : Z) (g : pyval) :
  Np.exact [AInt n] (Np.elements g) = true ->
  ~ In (AInt n) (Np.elements g) ->
  verify_in_list [(k1, Scalar (AInt n)); (k2, g)]
  = raise (TypeError "'int' object is not iterable").
Proof.
  intros Hex Hnot. apply verify_in_list_iter_error; [|reflexivity].
  rewrite isin_all_exact by exact Hex. cbn [Np.elements forallb].
  destruct (mem (AInt n) (Np.elements g)) eqn:E; [|reflexivity].
  apply mem_In in E. contradiction.
Qed.

Lemma verify_in_list_int_candidate_witness :
  Np.exact [AInt 5] (Np.elements (Coll [AInt 1; AInt 2])) = true
  /\ ~ In (AInt 5) (Np.elements (Coll [AInt 1; AInt 2]))
  /\ verify_in_list [("one", Scalar (AInt 5)); ("two", Coll [AInt 1; AInt 2])]
     = raise (TypeError "'int' object is not iterable").
Proof.
  assert (Hnot : ~ In (AInt 5) (Np.elements (Coll [AInt 1; AInt 2]))).
  { simpl. intros [E | [E | []]]; discriminate E. }
  split; [reflexivity|]. split; [exact Hnot|].
  exact (verify_in_list_int_candidate "one" "two" 5 (Coll [AInt 1; AInt 2]) eq_refl Hnot).
Defined.

(** X8.  A bare 64-bit integer as reference makes verify_in_list raise
    TypeError as soon as some value of a candidate list of 64-bit integers
    differs from it: the failure branch applies [in] to the integer. *)
Theorem verify_in_list_int_reference (k1 k2 : string) (A : list atom) (m : Z) :
  Np.exact A [AInt m] = true ->
  (exists a, In a A /\ a <> AInt m) ->
  verify_in_list [(k1, Coll A); (k2, Scalar (AInt m))]
  = raise (TypeError "argument of type 'int' is not iterable").
Proof.
  intros Hex [a [Ha Hne]].
  apply verify_in_list_membership_error with (vals := A); [|reflexivity|].
  - rewrite isin_all_exact by exact Hex. cbn [Np.elements]. apply forallb_mem_false.
    exists a. split; [exact Ha|]. intros [E | []]. now elim Hne.
  - destruct A as [|a0 rest]; [destruct Ha|]. reflexivity.
Qed.

Lemma verify_in_list_int_reference_witness :
  Np.exact [AInt 1; AInt 2] [AInt 1] = true
  /\ (exists a, In a [AInt 1; AInt 2] /\ a <> AInt 1)
  /\ verify_in_list [("one", Coll [AInt 1; AInt 2]); ("two", Scalar (AInt 1))]
     = raise (TypeError "argument of type 'int' is not iterable").
Proof.
  assert (Hbad : exists a, In a [AInt 1; AInt 2] /\ a <> AInt 1).
  { exists (AInt 2). split; [simpl; auto | discriminate]. }
  split; [reflexivity|]. split; [exact Hbad|].
  exact (verify_in_list_int_reference "one" "two" [AInt 1; AInt 2] 1 eq_refl Hbad).
Defined.

Lemma exact_same_reference (A B B' : list atom) :
  (forall x, In x B <-> In x B') -> Np.exact A B = true -> Np.exact A B' = true.
Proof.
  intros Hsame. unfold Np.exact. rewrite !orb_true_iff, !andb_true_iff, !forallb_forall.
  intros [[HA HB] | [HA HB]]; [left | right]; (split; [exact HA|]);
    intros x Hx; apply HB; now apply Hsame.
Qed.

(** X9.  On lists of 64-bit integers, or of strings without trailing NUL
    character, the outcome of verify_in_list does not depend on the order
    or the repetitions of the reference list, nor on the name under which
    the reference is passed. *)
Theorem verify_in_list_reference_as_set (k1 k2 k2' : string) (A B B' : list atom) :
  Np.exact A B = true ->
  (forall x, In x B <-> In x B') ->
  verify_in_list [(k1, Coll A); (k2, Coll B)]
  = verify_in_list [(k1, Coll A); (k2', Coll B')].
Proof.
  intros Hex Hsame.
  rewrite (verify_in_list_outcome k1 k2 A B Hex).
  rewrite (verify_in_list_outcome k1 k2' A B' (exact_same_reference A B B' Hsame Hex)).
  assert (Hmem : forall a, mem a B = mem a B').
  { intros a. rewrite !mem_in_dec.
    destruct (in_dec atom_eq_dec a B) as [Hi | Hi],
             (in_dec atom_eq_dec a B') as [Hi' | Hi']; try reflexivity.
    - elim Hi'. now apply Hsame.
    - elim Hi. now apply Hsame. }
  assert (Hoff : offending A B = offending A B').
  { unfold offending. apply filter_ext. intros a.
    generalize (Hmem a). rewrite !mem_in_dec.
    destruct (in_dec atom_eq_dec a B), (in_dec atom_eq_dec a B'); congruence. }
  assert (Hall : forallb (fun a => mem a B) A = forallb (fun a => mem a B') A).
  { clear Hoff Hex. induction A as [|a A IH]; [reflexivity|].
    cbn [forallb]. now rewrite Hmem, IH. }
  now rewrite Hoff, Hall.
Qed.

Lemma verify_in_list_reference_as_set_witness :
  Np.exact [AStr "c"; AStr "a"] [AStr "a"; AStr "b"] = true
  /\ (forall x, In x [AStr "a"; AStr "b"] <-> In x [AStr "b"; AStr "a"; AStr "b"])
  /\ verify_in_list [("one", Coll [AStr "c"; AStr "a"]); ("two", Coll [AStr "a"; AStr "b"])]
     = verify_in_list [("one", Coll [AStr "c"; AStr "a"]);
                       ("other", Coll [AStr "b"; AStr "a"; AStr "b"])].
Proof.
  assert (Hsame : forall x, In x [AStr "a"; AStr "b"]
                            <-> In x [AStr "b"; AStr "a"; AStr "b"]).
  { intros x. simpl. tauto. }
  split; [reflexivity|]. split; [exact Hsame|].
  exact (verify_in_list_reference_as_set "one" "two" "other"
           [AStr "c"; AStr "a"] [AStr "a"; AStr "b"] [AStr "b"; AStr "a"; AStr "b"]
           eq_refl Hsame).
Defined.

(** ** Further properties of verify_same_elements *)

Lemma set_diff_nil_incl (s t : pyset) : set_diff s t = [] -> incl s t.
Proof.
  intros E x Hx. destruct (in_dec atom_eq_dec x t) as [Hin | Hnin]; [exact Hin|].
  assert (Hd : In x (set_diff s t)) by (apply set_diff_In; auto).
  rewrite E in Hd. destruct Hd.
Qed.

Lemma set_eq_both_directions (A B : list atom) :
  set_eq (set A) (set B)
  = forallb (fun a => mem a B) A && forallb (fun b => mem b A) B.
Proof.
  destruct (set_eq (set A) (set B)) eqn:E.
  - symmetry. apply andb_true_iff.
    assert (Hsame := proj1 (set_eq_same_elements A B) E).
    split; apply forallb_mem_true; intros x Hx; now apply Hsame.
  - symmetry. apply not_true_is_false. intros Hboth.
    apply andb_true_iff in Hboth. destruct Hboth as [HAB HBA].
    rewrite forallb_forall in HAB, HBA.
    assert (Heq : set_eq (set A) (set B) = true).
    { apply set_eq_same_elements. intros x. split; intros Hx.
      - apply mem_In. now apply HAB.
      - apply mem_In. now apply HBA. }
    congruence.
Qed.

Section SameElementsMore.

Context `{HashOrder}.

Lemma set_iter_NoDup (s : pyset) : NoDup s -> NoDup (set_iter s).
Proof.
  intros Hs. apply (Permutation_NoDup (l := s)); [|exact Hs].
  apply Permutation_sym, set_iter_perm.
Qed.

Lemma missing_length (A B : list atom) :
  List.length (missing A B) = List.length (set_diff (set A) (set B)).
Proof. unfold missing. now rewrite length_map, set_iter_length. Qed.

Lemma missing_total_length (A B : list atom) :
  List.length (missing_total A B)
  = List.length (missing A B) + List.length (missing B A).
Proof.
  unfold missing_total. rewrite length_map, set_iter_length, !missing_length.
  unfold set_symdiff. apply length_app.
Qed.

Lemma some_value_missing (A B : list atom) :
  ~ (forall x, In x A <-> In x B) ->
  1 <= List.length (missing A B) + List.length (missing B A).
Proof.
  intros Hdiff. rewrite !missing_length.
  destruct (set_diff (set A) (set B)) as [|a l] eqn:E1; [|simpl; lia].
  destruct (set_diff (set B) (set A)) as [|b l] eqn:E2; [|simpl; lia].
  elim Hdiff. intros x.
  apply set_diff_nil_incl in E1. apply set_diff_nil_incl in E2.
  rewrite <- (set_In x A), <- (set_In x B). split; [apply E1 | apply E2].
Qed.

End SameElementsMore.

(** X10.  verify_same_elements never returns normally and never prints:
    whatever the named arguments are, it ends by raising ValueError,
    TypeError or the UnboundLocalError of its last statement. *)
Theorem verify_same_elements_always_raises `{HashOrder}
    (kwargs : list (string * pyval)) :
  trace (verify_same_elements kwargs) = []
  /\ ((exists msg c, result (verify_same_elements kwargs) = Err (ValueError msg) c)
      \/ (exists msg, result (verify_same_elements kwargs) = Err (TypeError msg) None)
      \/ result (verify_same_elements kwargs)
         = Err (UnboundLocalError "list_one_name") None).
Proof.
  destruct kwargs as [|[k1 v1] [|[k2 v2] [|p rest]]];
    try (split; [reflexivity | left; do 2 eexists; reflexivity]).
  assert (Hcases : ((exists n, v1 = Scalar (AInt n)) \/ (exists n, v2 = Scalar (AInt n)))
                   \/ (exists A B, iter v1 = ret A /\ iter v2 = ret B)).
  { destruct v1 as [[n1 | s1] | xs1]; [left; left; eauto | |];
      (destruct v2 as [[n2 | s2] | xs2]; [left; right; eauto | |]);
      right; do 2 eexists; split; reflexivity. }
  destruct Hcases as [Hbad | (A & B & H1 & H2)].
  - rewrite (verify_same_elements_not_iterable k1 k2 v1 v2 Hbad).
    split; [reflexivity | left; do 2 eexists; reflexivity].
  - destruct (set_eq (set A) (set B)) eqn:E.
    + rewrite (verify_same_elements_pass k1 k2 v1 v2 A B H1 H2 E).
      split; [reflexivity | now right; right].
    + rewrite (verify_same_elements_failure k1 k2 v1 v2 A B H1 H2 E).
      split; [reflexivity | left; do 2 eexists; reflexivity].
Qed.

(** X11.  On two inputs that can be turned into lists, verify_same_elements
    raises its comparison error exactly when some value occurs in one input
    and not in the other; order and repetitions play no part. *)
Theorem verify_same_elements_fails_iff `{HashOrder}
    (k1 k2 : string) (v1 v2 : pyval) (A B : list atom) :
  iter v1 = ret A -> iter v2 = ret B ->
  ((exists msg, verify_same_elements [(k1, v1); (k2, v2)] = raise (ValueError msg))
   <-> ~ (forall x, In x A <-> In x B)).
Proof.
  intros H1 H2. destruct (set_eq (set A) (set B)) eqn:E.
  - rewrite (verify_same_elements_pass k1 k2 v1 v2 A B H1 H2 E). split.
    + intros [msg Hmsg]. discriminate Hmsg.
    + intros Hdiff. elim Hdiff. now apply set_eq_same_elements.
  - rewrite (verify_same_elements_failure k1 k2 v1 v2 A B H1 H2 E). split.
    + intros _ Hsame. apply set_eq_same_elements in Hsame. congruence.
    + intros _. eexists; reflexivity.
Qed.

Lemma verify_same_elements_fails_iff_witness :
  iter (Scalar (AStr "ab")) = ret [AStr "a"; AStr "b"]
  /\ iter (Coll [AStr "b"; AStr "a"; AStr "a"]) = ret [AStr "b"; AStr "a"; AStr "a"]
  /\ ((exists msg,
         @verify_same_elements insertion_order
           [("one", Scalar (AStr "ab")); ("two", Coll [AStr "b"; AStr "a"; AStr "a"])]
         = raise (ValueError msg))
      <-> ~ (forall x, In x [AStr "a"; AStr "b"] <-> In x [AStr "b"; AStr "a"; AStr "a"])).
Proof.
  split; [reflexivity|]. split; [reflexivity|].
  exact (@verify_same_elements_fails_iff insertion_order "one" "two"
           (Scalar (AStr "ab")) (Coll [AStr "b"; AStr "a"; AStr "a"])
           [AStr "a"; AStr "b"] [AStr "b"; AStr "a"; AStr "a"] eq_refl eq_refl).
Defined.

(** X12.  In the comparison error the number given in the summary line is
    the number of values missing in the first direction plus the number
    missing in the second, and it is at least 1. *)
Theorem verify_same_elements_summary_count `{HashOrder}
    (k1 k2 : string) (v1 v2 : pyval) (A B : list atom) :
  iter v1 = ret A -> iter v2 = ret B ->
  ~ (forall x, In x A <-> In x B) ->
  1 <= List.length (missing A B) + List.length (missing B A)
  /\ verify_same_elements [(k1, v1); (k2, v2)]
     = raise (ValueError
         (same_elements_summary (List.length (missing A B) + List.length (missing B A))
            (display_name k1) (display_name k2)
          ++ direction_section (Nat.min (List.length (missing A B)) 10)
               (List.length (missing B A)) (display_name k1) (missing A B)
          ++ direction_section (Nat.min (List.length (missing B A)) 10)
               (List.length (missing B A)) (display_name k2) (missing B A))).
Proof.
  intros H1 H2 Hdiff. split; [now apply some_value_missing|].
  assert (Hne : set_eq (set A) (set B) = false).
  { destruct (set_eq (set A) (set B)) eqn:E; [|reflexivity].
    elim Hdiff. now apply set_eq_same_elements. }
  rewrite (verify_same_elements_failure k1 k2 v1 v2 A B H1 H2 Hne).
  unfold same_elements_message. now rewrite missing_total_length.
Qed.

Lemma verify_same_elements_summary_count_witness :
  iter (Coll [AStr "elem1"; AStr "elem2"; AStr "elem2"])
  = ret [AStr "elem1"; AStr "elem2"; AStr "elem2"]
  /\ iter (Coll [AStr "elem2"; AStr "elem2"; AStr "elem4"])
     = ret [AStr "elem2"; AStr "elem2"; AStr "elem4"]
  /\ ~ (forall x, In x [AStr "elem1"; AStr "elem2"; AStr "elem2"]
                  <-> In x [AStr "elem2"; AStr "elem2"; AStr "elem4"])
  /\ @verify_same_elements insertion_order
       [("one", Coll [AStr "elem1"; AStr "elem2"; AStr "elem2"]);
        ("two", Coll [AStr "elem2"; AStr "elem2"; AStr "elem4"])]
     = raise (ValueError
         ("2 value(s) provided for list one and list two are not found in both lists."
          ++ newline
          ++ "Displaying 1 of 1 missing value(s) for list one" ++ newline
          ++ " " ++ newline
          ++ "1            elem1" ++ newline
          ++ newline
          ++ "Displaying 1 of 1 missing value(s) for list two" ++ newline
          ++ " " ++ newline
          ++ "1            elem4" ++ newline
          ++ newline)).
Proof.
  assert (Hdiff : ~ (forall x, In x [AStr "elem1"; AStr "elem2"; AStr "elem2"]
                               <-> In x [AStr "elem2"; AStr "elem2"; AStr "elem4"])).
  { intros Hall. destruct (proj1 (Hall (AStr "elem1"))) as [E | [E | [E | []]]];
      [simpl; auto | discriminate E ..]. }
  split; [reflexivity|]. split; [reflexivity|]. split; [exact Hdiff|].
  exact (proj2 (@verify_same_elements_summary_count insertion_order "one" "two"
                  (Coll [AStr "elem1"; AStr "elem2"; AStr "elem2"])
                  (Coll [AStr "elem2"; AStr "elem2"; AStr "elem4"])
                  [AStr "elem1"; AStr "elem2"; AStr "elem2"]
                  [AStr "elem2"; AStr "elem2"; AStr "elem4"] eq_refl eq_refl Hdiff)).
Defined.

(** X13.  What verify_in_list collects for a candidate list [A] and a
    reference list [B] is the string forms of the values of [A] that are
    not in [B]; a direction of verify_same_elements lists the same values,
    each distinct value once, in the order in which the set is iterated. *)
Theorem missing_is_distinct_offending `{HashOrder} (A B : list atom) :
  difference_comp A (Coll B) = ret (map str (offending A B))
  /\ Permutation (missing A B) (map str (nodup atom_eq_dec (offending A B))).
Proof.
  split; [apply difference_comp_coll|].
  unfold missing. apply Permutation_map. apply NoDup_Permutation.
  - apply set_iter_NoDup. unfold set_diff. apply NoDup_filter, set_NoDup.
  - apply NoDup_nodup.
  - intros x. rewrite set_iter_In, set_diff_In, (set_In x A), (set_In x B), nodup_In.
    unfold offending. rewrite filter_In.
    destruct (in_dec atom_eq_dec x B) as [Hin | Hnin]; split.
    + intros [_ Hn]. contradiction.
    + intros [_ Hf]. discriminate Hf.
    + intros [Hx _]. now split.
    + intros [Hx _]. now split.
Qed.

(** X14.  On two lists of 64-bit integers, or of strings without trailing
    NUL character, verify_same_elements raises its comparison error exactly
    when verify_in_list raises its membership error for one of the two ways
    of taking one list as candidate and the other as reference. *)
Theorem verify_same_elements_fails_iff_some_direction `{HashOrder}
    (k1 k2 : string) (A B : list atom) :
  Np.exact A B = true ->
  ((exists msg, verify_same_elements [(k1, Coll A); (k2, Coll B)] = raise (ValueError msg))
   <-> ((exists msg, verify_in_list [(k1, Coll A); (k2, Coll B)] = raise (ValueError msg))
        \/ (exists msg, verify_in_list [(k2, Coll B); (k1, Coll A)]
                        = raise (ValueError msg)))).
Proof.
  intros Hex.
  assert (Hex' : Np.exact B A = true) by (now rewrite exact_sym).
  rewrite verify_same_elements_outcome, set_eq_both_directions.
  rewrite (verify_in_list_outcome k1 k2 A B Hex), (verify_in_list_outcome k2 k1 B A Hex').
  destruct (forallb (fun a => mem a B) A), (forallb (fun b => mem b A) B); cbn [andb].
  - split; [intros [m E]; discriminate E | intros [[m E] | [m E]]; discriminate E].
  - split; [intros _; right; eexists; reflexivity | intros _; eexists; reflexivity].
  - split; [intros _; left; eexists; reflexivity | intros _; eexists; reflexivity].
  - split; [intros _; left; eexists; reflexivity | intros _; eexists; reflexivity].
Qed.

Lemma verify_same_elements_fails_iff_some_direction_witness :
  Np.exact [AStr "a"; AStr "b"] [AStr "a"] = true
  /\ ((exists msg,
         @verify_same_elements insertion_order
           [("one", Coll [AStr "a"; AStr "b"]); ("two", Coll [AStr "a"])]
         = raise (ValueError msg))
      <-> ((exists msg,
              verify_in_list [("one", Coll [AStr "a"; AStr "b"]); ("two", Coll [AStr "a"])]
              = raise (ValueError msg))
           \/ (exists msg,
                 verify_in_list [("two", Coll [AStr "a"]); ("one", Coll [AStr "a"; AStr "b"])]
                 = raise (ValueError msg)))).
Proof.
  split; [reflexivity|].
  exact (@verify_same_elements_fails_iff_some_direction insertion_order "one" "two"
           [AStr "a"; AStr "b"] [AStr "a"] eq_refl).
Defined.

(** ** Further properties of save_figure *)

Lemma ends_with_slash_iff (s : string) :
  Os.ends_with_slash s = true <-> exists d, s = d ++ "/".
Proof.
  induction s as [|c s IH].
  - split; [discriminate|]. intros [d Hd]. destruct d; discriminate Hd.
  - destruct s as [|c' s'].
    + cbn [Os.ends_with_slash]. rewrite Ascii.eqb_eq. split.
      * intros ->. now exists "".
      * intros [d Hd]. destruct d as [|x d]; [now injection Hd|].
        injection Hd as _ Hd. destruct d; discriminate Hd.
    + change (Os.ends_with_slash (String c (String c' s')))
        with (Os.ends_with_slash (String c' s')).
      rewrite IH. split.
      * intros [d ->]. now exists (String c d).
      * intros [d Hd]. destruct d as [|x d]; [discriminate Hd|].
        injection Hd as _ Hd. now exists d.
Qed.

(** X15.  With an existing directory, save_figure calls the plotting
    library once and ends as that call ends; the target is the file name
    alone when it starts with a slash (the directory is checked but not
    used), the directory followed by the file name when the directory is
    empty or ends with a slash, and the directory, a slash and the file name
    otherwise. *)
Theorem save_figure_target (lib : Plt.backend) (w : Os.fs) (save_dir name : string)
    (dpi : option pyfloat) :
  Os.path_exists w save_dir = true ->
  exists target,
    save_figure lib w save_dir (Some name) dpi = Plt.savefig lib target dpi
    /\ (String.prefix "/" name = true -> target = name)
    /\ (String.prefix "/" name = false ->
        save_dir = "" \/ (exists d, save_dir = d ++ "/") ->
        target = save_dir ++ name)
    /\ (String.prefix "/" name = false ->
        save_dir <> "" -> (forall d, save_dir <> d ++ "/") ->
        target = save_dir ++ "/" ++ name).
Proof.
  intros Hdir. exists (Os.path_join save_dir name). split; [|split; [|split]].
  - unfold save_figure. rewrite Hdir. reflexivity.
  - intros Habs. unfold Os.path_join. now rewrite Habs.
  - intros Hrel Hsep. unfold Os.path_join. rewrite Hrel.
    replace (Nat.eqb (String.length save_dir) 0 || Os.ends_with_slash save_dir)
      with true; [reflexivity|].
    symmetry. apply orb_true_iff. destruct Hsep as [-> | Hd]; [now left|].
    right. now apply ends_with_slash_iff.
  - intros Hrel Hne Hns. unfold Os.path_join. rewrite Hrel.
    replace (Nat.eqb (String.length save_dir) 0 || Os.ends_with_slash save_dir)
      with false; [reflexivity|].
    symmetry. apply orb_false_iff. split.
    + destruct save_dir; [now elim Hne | reflexivity].
    + destruct (Os.ends_with_slash save_dir) eqn:E; [|reflexivity].
      apply ends_with_slash_iff in E. destruct E as [d Hd]. now elim (Hns d).
Qed.

Lemma save_figure_target_witness :
  Os.path_exists (fun p => String.eqb p "plots") "plots" = true
  /\ save_figure (fun _ => None) (fun p => String.eqb p "plots") "plots"
       (Some "fig.png") None
     = Plt.savefig (fun _ => None) "plots/fig.png" None.
Proof.
  assert (Hdir : Os.path_exists (fun p => String.eqb p "plots") "plots" = true)
    by reflexivity.
  split; [exact Hdir|].
  destruct (save_figure_target (fun _ => None) (fun p => String.eqb p "plots") "plots"
              "fig.png" None Hdir) as (target & Hrun & _ & _ & Hrel).
  rewrite Hrun. rewrite Hrel; [reflexivity | reflexivity | discriminate |].
  intros d Hd. apply (f_equal last_char) in Hd.
  rewrite last_char_append in Hd. discriminate Hd.
Defined.

(** ** The repository's tests on the model *)

Lemma test_verify_in_list_passes : test_verify_in_list = true.
Proof. reflexivity. Qed.

Lemma test_verify_same_elements_passes `{HashOrder} : test_verify_same_elements = true.
Proof.
  unfold test_verify_same_elements.
  rewrite (verify_same_elements_failure "one" "two"
             (Coll [AStr "elem1"; AStr "elem2"; AStr "elem2"])
             (Coll [AStr "elem2"; AStr "elem2"; AStr "elem4"])
             [AStr "elem1"; AStr "elem2"; AStr "elem2"]
             [AStr "elem2"; AStr "elem2"; AStr "elem4"]) by reflexivity.
  reflexivity.
Qed.

Lemma test_create_invalid_data_str_passes : test_create_invalid_data_str = true.
Proof. vm_compute. reflexivity. Qed.
